(** * View-synthesis operators of the photogrammetry importer

    Shallow embedding of
    [photogrammetry_importer/panels/view_synthesis_operators.py]:
    the transform correction relative to the rotation anchor, the
    construction of the instant-ngp command, the temp-file exchange with
    the external process and the two orchestrators (single shot and
    animation sequence).

    Floating-point matrix entries are modelled by exact rationals [Q]. The
    Python code runs as a computation in a small monad that threads the
    host/file-system state, raises Python exceptions and records the
    calls it makes to its collaborators as a list of events. *)

From Stdlib Require Import QArith ZArith NArith List String Ascii Bool Lia.
Import ListNotations.
Open Scope string_scope.

(** ** 4x4 matrices (numpy arrays / mathutils.Matrix) *)

Definition mat := nat -> nat -> Q.


Definition vec3 : Type := (Q * Q * Q)%type.

(** [sum_k<n f k] *)
Fixpoint qsum (n : nat) (f : nat -> Q) : Q :=
  match n with
  | O => 0
  | S k => qsum k f + f k
  end.

(** [A @ B] for 4x4 matrices. *)
Definition matmul (A B : mat) : mat :=
  fun i j => qsum 4 (fun k => A i k * B k j).

(** [m[r, c] += v] *)
Definition add_at (m : mat) (r c : nat) (v : Q) : mat :=
  fun i j => if Nat.eqb i r && Nat.eqb j c then m i j + v else m i j.

Definition identity4 : mat :=
  fun i j => if Nat.eqb i j then 1 else 0.

(** Modelled from the spec: [invert_transformation_matrix] of
    [utility/np_utility.py] (not part of the sources at hand), "the
    inverse of the anchor's world transform", in the closed form used for
    rigid transforms [[R t; 0 1] -> [R^T, -R^T t; 0 1]]. *)
Definition invert_transformation_matrix (m : mat) : mat :=
  fun i j =>
    if Nat.ltb i 3 then
      if Nat.ltb j 3 then m j i
      else if Nat.eqb j 3 then - qsum 3 (fun k => m k i * m k 3%nat)
      else 0
    else if Nat.eqb i 3 then (if Nat.eqb j 3 then 1 else 0)
    else 0.

(** A homogeneous translation by [(x, y, z)]. *)
Definition translation (x y z : Q) : mat :=
  fun i j =>
    if Nat.eqb j 3 then
      match i with O => x | 1%nat => y | 2%nat => z | 3%nat => 1 | _ => 0 end
    else identity4 i j.

(** The matrix part of [shift_selected_camera_relative_to_anchor]
    (lines 181-199): invert the anchor, add the centroid shift (if any) to
    the translation column, multiply on the left of the camera matrix. *)
Definition shift_anchor_inverse (anchor : mat) (centroid_shift : option vec3) : mat :=
  let anchor_matrix_world := invert_transformation_matrix anchor in
  match centroid_shift with
  | Some (s0, s1, s2) =>
      add_at (add_at (add_at anchor_matrix_world 0 3 s0) 1 3 s1) 2 3 s2
  | None => anchor_matrix_world
  end.

Definition correct_transform (camera anchor : mat) (centroid_shift : option vec3) : mat :=
  matmul (shift_anchor_inverse anchor centroid_shift) camera.

(** ** Host scene, settings and file system *)

(** [scene.view_synthesis_panel_settings] (the fields this file reads). *)
Record settings := {
  execution_environment : string;
  conda_exe_fp : string;
  conda_env_name : string;
  python_exe_fp : string;
  view_synthesis_executable_fp : string;
  view_synthesis_snapshot_fp : string;
  additional_system_dps : string;
  samples_per_pixel : Z;
  rotation_anchor_obj_name : string
}.

(** A Blender object: its name, its (possibly animated) world matrix and
    its (possibly animated) custom property ["centroid_shift"], both as
    functions of the timeline frame. *)
Record blender_obj := {
  ob_name : string;
  ob_matrix_world : Z -> mat;
  ob_centroid_shift : Z -> option vec3
}.

Record scene := {
  view_synthesis_panel_settings : settings;
  sc_objects : list blender_obj;            (* bpy.data.objects *)
  sc_selected_camera : option blender_obj   (* what get_selected_camera() sees *)
}.

Inductive platform := Linux | Win32 | OtherPlatform (name : string).

(** A numpy array of shape [(nd_h, nd_w, nd_c)]; each row holds the
    [nd_w * nd_c] values of one image row in C order. *)
Record ndarray := {
  nd_h : nat;
  nd_w : nat;
  nd_c : nat;
  nd_rows : list (list Q)
}.

(** Modelled from the spec: [get_computer_vision_camera] of
    [importers/camera_utility.py] (not part of the sources at hand); a
    CameraPose is "a 4x4 homogeneous transform plus an identifying name". *)
Record camera_pose := {
  cp_name : string;
  cp_matrix : mat
}.

Inductive fdata :=
| FEmpty
| FRequest (cams : list camera_pose) (ref_centroid_shift : option vec3)
| FArray (a : ndarray).

(** A file on disk; [f_open] and [f_delete] describe the handle of the
    [NamedTemporaryFile] that created it (a file with [f_delete] is removed
    when that handle is closed). *)
Record file := {
  f_open : bool;
  f_delete : bool;
  f_data : fdata
}.

Record temp_file := {
  tf_name : string;
  tf_delete : bool
}.

Record world := {
  w_platform : platform;                    (* sys.platform *)
  w_scene : scene;
  w_frame : Z;                              (* scene.frame_current *)
  w_fs : list (string * file);
  w_fresh : list string;                    (* names NamedTemporaryFile picks *)
  w_exit : list string -> option Z;         (* exit status of the launched command; None: it cannot be launched *)
  w_engine : list string -> list (string * ndarray);  (* files the external process writes *)
  w_anim_indices : list Z
}.

Definition set_fs (w : world) (fs : list (string * file)) : world :=
  {| w_platform := w_platform w; w_scene := w_scene w; w_frame := w_frame w;
     w_fs := fs; w_fresh := w_fresh w; w_exit := w_exit w;
     w_engine := w_engine w; w_anim_indices := w_anim_indices w |}.

Definition set_fresh (w : world) (l : list string) : world :=
  {| w_platform := w_platform w; w_scene := w_scene w; w_frame := w_frame w;
     w_fs := w_fs w; w_fresh := l; w_exit := w_exit w;
     w_engine := w_engine w; w_anim_indices := w_anim_indices w |}.

Definition set_frame (w : world) (f : Z) : world :=
  {| w_platform := w_platform w; w_scene := w_scene w; w_frame := f;
     w_fs := w_fs w; w_fresh := w_fresh w; w_exit := w_exit w;
     w_engine := w_engine w; w_anim_indices := w_anim_indices w |}.

Definition set_exit (w : world) (e : list string -> option Z) : world :=
  {| w_platform := w_platform w; w_scene := w_scene w; w_frame := w_frame w;
     w_fs := w_fs w; w_fresh := w_fresh w; w_exit := e;
     w_engine := w_engine w; w_anim_indices := w_anim_indices w |}.

Fixpoint fs_lookup (p : string) (fs : list (string * file)) : option file :=
  match fs with
  | [] => None
  | (q, f) :: rest => if String.eqb q p then Some f else fs_lookup p rest
  end.

Definition fs_remove (p : string) (fs : list (string * file)) : list (string * file) :=
  filter (fun e => negb (String.eqb (fst e) p)) fs.

Definition fs_put (p : string) (f : file) (fs : list (string * file)) : list (string * file) :=
  (p, f) :: fs_remove p fs.

(** [os.path.isfile] *)
Definition isfile (p : string) (fs : list (string * file)) : bool :=
  match fs_lookup p fs with Some _ => true | None => false end.

(** ** Calls to collaborators, exceptions and the monad *)

Inductive event :=
| ELog (msg : string)                     (* log_report *)
| ETempFile (name : string)               (* NamedTemporaryFile() *)
| EReadSettings                           (* reads scene.view_synthesis_panel_settings *)
| ESeek (idx : Z)                         (* scene.frame_set(idx) *)
| ECorrect (frame : Z)                    (* shift_selected_camera_relative_to_anchor *)
| EWriteRequest (path : string) (cams : list camera_pose) (shift : option vec3)
| ESpawn (cmd : list string)              (* subprocess.Popen(command) *)
| EWait                                   (* child_process.communicate() returned *)
| EReadResponse (path : string) (value : option ndarray)  (* read_np_array_from_file and what it returned *)
| EDisplay (width height : nat) (pixels : list Q) (target : string)
| ECleanup.                               (* cleanup_tmp_files *)

Inductive exn :=
| AssertionError
| KeyError
| AttributeError
| UnboundLocalError
| FileNotFoundError
| ValueError.

Inductive result (A : Type) :=
| Ok (a : A)
| Raise (e : exn).
Arguments Ok {A} a.
Arguments Raise {A} e.

Record out (A : Type) := Out {
  res : result A;
  wld : world;
  trace : list event
}.
Arguments Out {A} res wld trace.
Arguments res {A} o.
Arguments wld {A} o.
Arguments trace {A} o.

Definition M (A : Type) := world -> out A.

Definition ret {A} (a : A) : M A := fun w => Out (Ok a) w [].

Definition raise {A} (e : exn) : M A := fun w => Out (Raise e) w [].

Definition bind {A B} (c : M A) (f : A -> M B) : M B :=
  fun w =>
    match c w with
    | Out (Ok a) w1 t1 =>
        match f a w1 with Out r w2 t2 => Out r w2 (t1 ++ t2) end
    | Out (Raise e) w1 t1 => Out (Raise e) w1 t1
    end.

Notation "x <- c1 ;; c2" := (bind c1 (fun x => c2))
  (at level 61, c1 at next level, right associativity).
Notation "' p <- c1 ;; c2" := (bind c1 (fun x => match x with p => c2 end))
  (at level 61, p pattern, c1 at next level, right associativity).
Notation "c1 ;; c2" := (bind c1 (fun _ : unit => c2))
  (at level 61, right associativity).

Definition emit (e : event) : M unit := fun w => Out (Ok tt) w [e].

Definition get : M world := fun w => Out (Ok w) w [].

Definition modify (f : world -> world) : M unit := fun w => Out (Ok tt) (f w) [].

(** Python [assert b] *)
Definition assert (b : bool) : M unit := if b then ret tt else raise AssertionError.

(** ** Strings *)

(** The characters Python's [str.strip()] removes (ASCII whitespace). *)
Definition is_ws (c : ascii) : bool :=
  match nat_of_ascii c with
  | 9 | 10 | 11 | 12 | 13 | 32 => true
  | _ => false
  end%nat.

Fixpoint drop_ws (l : list ascii) : list ascii :=
  match l with
  | c :: rest => if is_ws c then drop_ws rest else l
  | [] => []
  end.

(** [s.strip()] *)
Definition strip (s : string) : string :=
  string_of_list_ascii (rev (drop_ws (rev (drop_ws (list_ascii_of_string s))))).

Definition digit (n : N) : ascii := ascii_of_N (48 + n).

Fixpoint digits_aux (fuel : nat) (n : N) (acc : string) : string :=
  match fuel with
  | O => acc
  | S fuel' =>
      let acc' := String (digit (N.modulo n 10)) acc in
      if N.ltb n 10 then acc' else digits_aux fuel' (N.div n 10) acc'
  end.

(** [str(z)] for an int *)
Definition str (z : Z) : string :=
  let n := Z.to_N (Z.abs z) in
  let ds := digits_aux (S (N.size_nat n)) n "" in
  if Z.ltb z 0 then "-" ++ ds else ds.

(** [" ".join(l)] *)
Fixpoint join (sep : string) (l : list string) : string :=
  match l with
  | [] => ""
  | [s] => s
  | s :: rest => s ++ sep ++ join sep rest
  end.

(** ** File operations *)

(** [NamedTemporaryFile(delete=delete)]: a fresh, open file. *)
Definition named_temporary_file (delete : bool) : M temp_file :=
  fun w =>
    let '(name, rest) :=
      match w_fresh w with
      | n :: r => (n, r)
      | [] => ("/tmp/tmp", [])
      end in
    Out (Ok {| tf_name := name; tf_delete := delete |})
        (set_fs (set_fresh w rest)
                (fs_put name {| f_open := true; f_delete := delete; f_data := FEmpty |} (w_fs w)))
        [ETempFile name].

(** [tf.close()]: a delete-on-close file is removed with its handle. *)
Definition close (tf : temp_file) : M unit :=
  fun w =>
    match fs_lookup (tf_name tf) (w_fs w) with
    | Some f =>
        if f_open f then
          if f_delete f then Out (Ok tt) (set_fs w (fs_remove (tf_name tf) (w_fs w))) []
          else Out (Ok tt)
                   (set_fs w (fs_put (tf_name tf)
                                {| f_open := false; f_delete := f_delete f; f_data := f_data f |}
                                (w_fs w))) []
        else Out (Ok tt) w []
    | None => Out (Ok tt) w []
    end.

(** [os.unlink(p)] *)
Definition unlink (p : string) : M unit :=
  fun w =>
    if isfile p (w_fs w) then Out (Ok tt) (set_fs w (fs_remove p (w_fs w))) []
    else Out (Raise FileNotFoundError) w [].

(** Replace the contents of the file at [p], keeping the handle flags of
    the temp file that owns it. *)
Definition put_data (p : string) (d : fdata) (fs : list (string * file)) : list (string * file) :=
  match fs_lookup p fs with
  | Some f => fs_put p {| f_open := f_open f; f_delete := f_delete f; f_data := d |} fs
  | None => fs_put p {| f_open := false; f_delete := false; f_data := d |} fs
  end.

(** Modelled from the spec: [InstantNGPFileHandler.write_instant_ngp_file]
    of [file_handlers/instant_ngp_file_handler.py] (not part of the
    sources at hand), "writeRequest(path, TransformRequest)": the request
    (cameras and anchor correction) is serialized to the file at [path]. *)
Definition write_instant_ngp_file (path : string) (cams : list camera_pose)
    (ref_centroid_shift : option vec3) : M unit :=
  fun w =>
    Out (Ok tt) (set_fs w (put_data path (FRequest cams ref_centroid_shift) (w_fs w)))
        [EWriteRequest path cams ref_centroid_shift].

(** Modelled from the spec: [read_np_array_from_file] of
    [process_communication/file_communication.py] (not part of the sources
    at hand), "readResponse(path)": fails when the file is missing
    (ResponseMissing) or holds no array (ResponseMalformed). *)
Definition read_np_array_from_file (path : string) : M ndarray :=
  fun w =>
    match fs_lookup path (w_fs w) with
    | None => Out (Raise FileNotFoundError) w [EReadResponse path None]
    | Some f =>
        match f_data f with
        | FArray a => Out (Ok a) w [EReadResponse path (Some a)]
        | _ => Out (Raise ValueError) w [EReadResponse path None]
        end
    end.

(** [child_process = subprocess.Popen(command); child_process.communicate()].
    The exit status ([returncode]) is stored on the process object and
    never read. *)
Definition popen_communicate (command : list string) : M unit :=
  w <- get ;;
  match w_exit w command with
  | None => raise FileNotFoundError
  | Some _ =>
      emit (ESpawn command) ;;
      modify (fun w => set_fs w (fold_left (fun fs pa => put_data (fst pa) (FArray (snd pa)) fs)
                                           (w_engine w command) (w_fs w))) ;;
      emit EWait
  end.

(** ** Command construction *)

(** Modelled from the spec: [create_subprocess_command] of
    [process_communication/subprocess_command.py] (not part of the sources
    at hand). SystemInterpreter: the interpreter, then the script, then the
    parameters; Direct: the executable, then the parameters; Conda: the
    named environment is activated through the conda executable (the spec
    leaves the exact form open; [conda run -n <env> python] is used). *)
Definition create_subprocess_command (script_fp : string) (parameter_list : list string)
    (python_exe_fp conda_exe_fp conda_env_name : option string) : list string :=
  match python_exe_fp, conda_exe_fp, conda_env_name with
  | Some py, _, _ => [py; script_fp] ++ parameter_list
  | None, Some conda, Some env => [conda; "run"; "-n"; env; "python"; script_fp] ++ parameter_list
  | _, _, _ => script_fp :: parameter_list
  end.

(** Lines 252-265 of [create_instant_ngp_cmd]. *)
Definition instant_ngp_parameter_list (view_synthesis_snapshot_fp temp_json_name temp_array_name : string)
    (samples_per_pixel : Z) (additional_system_dps : string) (output_dp : option string) : list string :=
  ["--load_snapshot"; view_synthesis_snapshot_fp]
  ++ ["--temp_json_ifp"; temp_json_name]
  ++ ["--temp_array_ofp"; temp_array_name]
  ++ ["--samples_per_pixel"; str samples_per_pixel]
  ++ (if negb (String.eqb (strip additional_system_dps) "")
      then ["--additional_system_dps"; additional_system_dps] else [])
  ++ (match output_dp with
      | Some dp => if negb (String.eqb (strip dp) "") then ["--additional_output_dp"; dp] else []
      | None => []
      end).

(** Lines 224-237: [(python_exe_fp, conda_exe_fp, conda_env_name)]; [None]
    when the setting is neither value, so that the names stay unbound. *)
Definition select_environment (st : settings) : option (option string * option string * option string) :=
  if String.eqb (execution_environment st) "CONDA" then
    Some (None, Some (conda_exe_fp st), Some (conda_env_name st))
  else if String.eqb (execution_environment st) "DEFAULT PYTHON" then
    Some (Some (python_exe_fp st), None, None)
  else None.

Definition create_temp_files : M (temp_file * temp_file) :=
  w <- get ;;
  match w_platform w with
  | Linux =>
      temp_json_file <- named_temporary_file true ;;
      temp_array_file <- named_temporary_file true ;;
      ret (temp_json_file, temp_array_file)
  | Win32 =>
      temp_json_file <- named_temporary_file false ;;
      temp_array_file <- named_temporary_file false ;;
      close temp_json_file ;;
      close temp_array_file ;;
      ret (temp_json_file, temp_array_file)
  | OtherPlatform _ => raise AssertionError  (* assert False *)
  end.

Definition create_instant_ngp_cmd (output_dp : option string)
    : M (list string * temp_file * temp_file) :=
  '(temp_json_file, temp_array_file) <- create_temp_files ;;
  emit EReadSettings ;;
  w <- get ;;
  let st := view_synthesis_panel_settings (w_scene w) in
  let env := select_environment st in
  let parameter_list :=
    instant_ngp_parameter_list (view_synthesis_snapshot_fp st) (tf_name temp_json_file)
      (tf_name temp_array_file) (samples_per_pixel st) (additional_system_dps st) output_dp in
  assert (isfile (view_synthesis_executable_fp st) (w_fs w)) ;;
  assert (isfile (tf_name temp_json_file) (w_fs w)) ;;
  assert (isfile (tf_name temp_array_file) (w_fs w)) ;;
  match env with
  | None => raise UnboundLocalError
  | Some (python_exe_fp, conda_exe_fp, conda_env_name) =>
      let command :=
        create_subprocess_command (view_synthesis_executable_fp st) parameter_list
          python_exe_fp conda_exe_fp conda_env_name in
      emit (ELog (join " " command)) ;;
      ret (command, temp_json_file, temp_array_file)
  end.

(** ** Transform correction *)

(** Modelled from the spec: [get_selected_camera] of
    [blender_utility/retrieval_utility.py] (not part of the sources at
    hand), "getSelectedCamera() -> CameraPose | none". *)
Definition get_selected_camera : M (option blender_obj) :=
  w <- get ;; ret (sc_selected_camera (w_scene w)).

(** [bpy.data.objects[name]] *)
Definition find_object (name : string) (objs : list blender_obj) : option blender_obj :=
  find (fun o => String.eqb (ob_name o) name) objs.

Definition shift_selected_camera_relative_to_anchor : M (camera_pose * option vec3) :=
  w <- get ;;
  emit (ECorrect (w_frame w)) ;;
  let sc := w_scene w in
  match find_object (rotation_anchor_obj_name (view_synthesis_panel_settings sc)) (sc_objects sc) with
  | None => raise KeyError
  | Some anchor_obj =>
      let centroid_shift := ob_centroid_shift anchor_obj (w_frame w) in
      camera_obj <- get_selected_camera ;;
      match camera_obj with
      | None => raise AttributeError  (* None.copy() *)
      | Some cam =>
          ret ({| cp_name := ob_name cam;
                  cp_matrix := correct_transform (ob_matrix_world cam (w_frame w))
                                 (ob_matrix_world anchor_obj (w_frame w)) centroid_shift |},
               centroid_shift)
      end
  end.

(** ** Display and cleanup *)

(** [np.flipud] *)
Definition flipud (a : ndarray) : ndarray :=
  {| nd_h := nd_h a; nd_w := nd_w a; nd_c := nd_c a; nd_rows := rev (nd_rows a) |}.

(** [a.ravel()] *)
Definition ravel (a : ndarray) : list Q := List.concat (nd_rows a).

Definition show_image_in_blender (temp_array_file : temp_file) (camera_obj : option blender_obj) : M unit :=
  img_np_array <- read_np_array_from_file (tf_name temp_array_file) ;;
  let img_np_array_flipped := flipud img_np_array in
  match camera_obj with
  | None => raise AttributeError  (* None.name *)
  | Some cam =>
      emit (EDisplay (nd_w img_np_array) (nd_h img_np_array) (ravel img_np_array_flipped) (ob_name cam))
  end.

Definition cleanup_tmp_files (temp_json_file temp_array_file : temp_file) : M unit :=
  emit ECleanup ;;
  w <- get ;;
  match w_platform w with
  | Win32 =>
      close temp_json_file ;;
      close temp_array_file ;;
      unlink (tf_name temp_json_file) ;;
      unlink (tf_name temp_array_file)
  | _ => ret tt
  end.

(** ** Orchestrators *)

Definition run_view_synth (save_to_dp : option string) : M string :=
  emit (ELog "Compute view synthesis for current camera: ...") ;;
  '(command, temp_json_file, temp_array_file) <- create_instant_ngp_cmd save_to_dp ;;
  '(camera_relative_to_anchor, centroid_shift) <- shift_selected_camera_relative_to_anchor ;;
  write_instant_ngp_file (tf_name temp_json_file) [camera_relative_to_anchor] centroid_shift ;;
  popen_communicate command ;;
  camera_obj <- get_selected_camera ;;
  show_image_in_blender temp_array_file camera_obj ;;
  cleanup_tmp_files temp_json_file temp_array_file ;;
  emit (ELog "Compute view synthesis for current camera: Done") ;;
  ret "FINISHED".

(** Modelled from the spec: [get_scene_animation_indices] of
    [blender_utility/retrieval_utility.py] (not part of the sources at
    hand), "getCurrentAnimationFrameIndices() -> ordered sequence of int". *)
Definition get_scene_animation_indices : M (list Z) :=
  w <- get ;; ret (w_anim_indices w).

(** [bpy.context.scene.frame_set(idx)] *)
Definition frame_set (idx : Z) : M unit :=
  emit (ESeek idx) ;; modify (fun w => set_frame w idx).

(** The loop of lines 130-134. [centroid_shift] is the Python local of the
    same name: [None] while it is unbound, [Some s] once assigned. *)
Fixpoint capture_cameras (animation_indices : list Z) (cameras : list camera_pose)
    (centroid_shift : option (option vec3)) : M (list camera_pose * option (option vec3)) :=
  match animation_indices with
  | [] => ret (cameras, centroid_shift)
  | idx :: rest =>
      frame_set idx ;;
      '(camera_relative_to_anchor, shift) <- shift_selected_camera_relative_to_anchor ;;
      capture_cameras rest (cameras ++ [camera_relative_to_anchor]) (Some shift)
  end.

(** [ExportViewSynthesisAnimOperator.execute] *)
Definition export_anim_execute (filepath : string) : M string :=
  emit (ELog "Export view synthesis for current camera with animation: ...") ;;
  '(command, temp_json_file, temp_array_file) <- create_instant_ngp_cmd (Some filepath) ;;
  animation_indices <- get_scene_animation_indices ;;
  '(cameras, bound_shift) <- capture_cameras animation_indices [] None ;;
  match bound_shift with
  | None => raise UnboundLocalError  (* centroid_shift referenced before assignment *)
  | Some centroid_shift =>
      write_instant_ngp_file (tf_name temp_json_file) cameras centroid_shift ;;
      popen_communicate command ;;
      cleanup_tmp_files temp_json_file temp_array_file ;;
      emit (ELog "Export view synthesis for current camera with Animation: Done") ;;
      ret "FINISHED"
  end.

(** ** Operators *)

Inductive operator :=
| RunViewSynthesisOperator
| ExportViewSynthesisOperator (filepath : string)
| ExportViewSynthesisAnimOperator (filepath : string).

(** [cam = get_selected_camera(); return cam is not None] *)
Definition selected_camera_is_not_none (w : world) : bool :=
  match res (get_selected_camera w) with
  | Ok (Some _) => true
  | _ => false
  end.

(** [poll], written out identically in each of the three classes. *)
Definition poll (op : operator) (w : world) : bool :=
  match op with
  | RunViewSynthesisOperator => selected_camera_is_not_none w
  | ExportViewSynthesisOperator _ => selected_camera_is_not_none w
  | ExportViewSynthesisAnimOperator _ => selected_camera_is_not_none w
  end.


(** ** Observations on traces *)

(** Events of the setup phase (temp files, settings, logging). *)
Definition is_setup (e : event) : bool :=
  match e with ELog _ | ETempFile _ | EReadSettings => true | _ => false end.

Definition is_write (e : event) : bool := match e with EWriteRequest _ _ _ => true | _ => false end.
Definition is_spawn (e : event) : bool := match e with ESpawn _ => true | _ => false end.
Definition is_wait (e : event) : bool := match e with EWait => true | _ => false end.
Definition is_read (e : event) : bool := match e with EReadResponse _ _ => true | _ => false end.
Definition is_display (e : event) : bool := match e with EDisplay _ _ _ _ => true | _ => false end.
Definition is_cleanup (e : event) : bool := match e with ECleanup => true | _ => false end.
Definition is_correct (e : event) : bool := match e with ECorrect _ => true | _ => false end.

(** Every [q]-event of [t] comes after some [p]-event ([seen]: one was
    already observed). *)
Fixpoint preceded (p q : event -> bool) (seen : bool) (t : list event) : bool :=
  match t with
  | [] => true
  | e :: rest => (negb (q e) || seen) && preceded p q (seen || p e) rest
  end.

(** Every [p]-event of [t] is immediately followed by a [q]-event. *)
Fixpoint followed_by (p q : event -> bool) (t : list event) : bool :=
  match t with
  | [] => true
  | e :: rest =>
      (negb (p e) || match rest with e' :: _ => q e' | [] => false end)
      && followed_by p q rest
  end.

(** The part of the host state the operators never change (apart from the
    timeline frame, which only [frame_set] moves). *)
Definition host_kept (w w' : world) : Prop :=
  w_platform w' = w_platform w /\ w_scene w' = w_scene w /\ w_exit w' = w_exit w /\
  w_engine w' = w_engine w /\ w_anim_indices w' = w_anim_indices w.

Lemma bind_out {A B} (c : M A) (f : A -> M B) (w : world) :
  bind c f w =
  match c w with
  | Out (Ok a) w1 t1 => match f a w1 with Out r w2 t2 => Out r w2 (t1 ++ t2) end
  | Out (Raise e) w1 t1 => Out (Raise e) w1 t1
  end.
Proof. reflexivity. Qed.

(** [c] keeps the host part of the state ([frame]: and the timeline). *)
Definition Keeps {A} (frame : bool) (c : M A) : Prop :=
  forall w, host_kept w (wld (c w)) /\ (frame = true -> w_frame (wld (c w)) = w_frame w).

(** Every event [c] reports satisfies [P]. *)
Definition TraceOnly {A} (P : event -> bool) (c : M A) : Prop :=
  forall w, forallb P (trace (c w)) = true.

Lemma host_kept_refl w : host_kept w w.
Proof. unfold host_kept; repeat split. Qed.

Lemma host_kept_trans w1 w2 w3 : host_kept w1 w2 -> host_kept w2 w3 -> host_kept w1 w3.
Proof. unfold host_kept; intuition congruence. Qed.

Lemma keeps_bind {A B} fr (c : M A) (f : A -> M B) :
  Keeps fr c -> (forall a, Keeps fr (f a)) -> Keeps fr (bind c f).
Proof.
  intros Hc Hf w; rewrite bind_out.
  destruct (Hc w) as [H1 F1]; destruct (c w) as [[a|e] w1 t1]; cbn in *; auto.
  destruct (Hf a w1) as [H2 F2]; destruct (f a w1) as [r w2 t2]; cbn in *.
  split; [eapply host_kept_trans; eauto | intros T; rewrite F2, F1; auto].
Qed.

Lemma traceonly_bind {A B} P (c : M A) (f : A -> M B) :
  TraceOnly P c -> (forall a, TraceOnly P (f a)) -> TraceOnly P (bind c f).
Proof.
  intros Hc Hf w; rewrite bind_out.
  specialize (Hc w); destruct (c w) as [[a|e] w1 t1]; cbn in *; auto.
  specialize (Hf a w1); destruct (f a w1) as [r w2 t2]; cbn in *.
  rewrite forallb_app, Hc, Hf; reflexivity.
Qed.

Lemma keeps_ret {A} fr (a : A) : Keeps fr (ret a).
Proof. intros w; split; [apply host_kept_refl | reflexivity]. Qed.

Lemma keeps_raise {A} fr e : Keeps fr (@raise A e).
Proof. intros w; split; [apply host_kept_refl | reflexivity]. Qed.

Lemma keeps_emit fr e : Keeps fr (emit e).
Proof. intros w; split; [apply host_kept_refl | reflexivity]. Qed.

Lemma keeps_get fr : Keeps fr get.
Proof. intros w; split; [apply host_kept_refl | reflexivity]. Qed.

Lemma keeps_assert fr b : Keeps fr (assert b).
Proof. destruct b; [apply keeps_ret | apply keeps_raise]. Qed.

Lemma keeps_modify_fs fr f : Keeps fr (modify (fun w => set_fs w (f w))).
Proof. intros w; split; [repeat split | reflexivity]. Qed.

Lemma keeps_named_temporary_file fr d : Keeps fr (named_temporary_file d).
Proof.
  intros w; unfold named_temporary_file.
  destruct (w_fresh w); split; try (repeat split); reflexivity.
Qed.

Lemma keeps_close fr tf : Keeps fr (close tf).
Proof.
  intros w; unfold close.
  destruct (fs_lookup (tf_name tf) (w_fs w)) as [f|]; [destruct (f_open f), (f_delete f)|];
    split; try (repeat split); reflexivity.
Qed.

Lemma keeps_unlink fr p : Keeps fr (unlink p).
Proof.
  intros w; unfold unlink; destruct (isfile p (w_fs w));
    split; try (repeat split); reflexivity.
Qed.

Lemma keeps_write fr p cams s : Keeps fr (write_instant_ngp_file p cams s).
Proof. intros w; split; [repeat split | reflexivity]. Qed.

Lemma traceonly_ret {A} P (a : A) : TraceOnly P (ret a).
Proof. intros w; reflexivity. Qed.

Lemma traceonly_raise {A} P e : TraceOnly P (@raise A e).
Proof. intros w; reflexivity. Qed.

Lemma traceonly_get P : TraceOnly P get.
Proof. intros w; reflexivity. Qed.

Lemma traceonly_assert P b : TraceOnly P (assert b).
Proof. destruct b; intros w; reflexivity. Qed.

Lemma traceonly_emit (P : event -> bool) e : P e = true -> TraceOnly P (emit e).
Proof. intros H w; cbn; rewrite H; reflexivity. Qed.

Lemma traceonly_close P tf : TraceOnly P (close tf).
Proof.
  intros w; unfold close.
  destruct (fs_lookup (tf_name tf) (w_fs w)) as [f|]; [destruct (f_open f), (f_delete f)|];
    reflexivity.
Qed.

Lemma traceonly_named_temporary_file d : TraceOnly is_setup (named_temporary_file d).
Proof. intros w; unfold named_temporary_file; destruct (w_fresh w); reflexivity. Qed.

Create HintDb monad.

#[local] Hint Resolve keeps_ret keeps_raise keeps_emit keeps_get keeps_assert keeps_modify_fs
  keeps_named_temporary_file keeps_close keeps_unlink keeps_write
  traceonly_ret traceonly_raise traceonly_get traceonly_assert traceonly_close
  traceonly_named_temporary_file : monad.

(** Decompose a computation into its binds and the matches of its
    continuations. *)
Ltac monad_decompose bind_lemma :=
  repeat first
    [ apply bind_lemma; intros
    | progress (auto with monad)
    | match goal with
      | |- context [match ?x with _ => _ end] => destruct x
      end ].

Lemma create_instant_ngp_cmd_keeps output_dp : Keeps true (create_instant_ngp_cmd output_dp).
Proof. unfold create_instant_ngp_cmd, create_temp_files; monad_decompose @keeps_bind. Qed.

Lemma create_instant_ngp_cmd_setup output_dp : TraceOnly is_setup (create_instant_ngp_cmd output_dp).
Proof.
  unfold create_instant_ngp_cmd, create_temp_files; monad_decompose @traceonly_bind;
    apply traceonly_emit; reflexivity.
Qed.

(** ** The steps of the orchestrators, evaluated *)

(** The anchor [bpy.data.objects[settings.rotation_anchor_obj_name]]. *)
Definition anchor_of (sc : scene) : option blender_obj :=
  find_object (rotation_anchor_obj_name (view_synthesis_panel_settings sc)) (sc_objects sc).

(** The camera pose the corrector computes at [frame]. *)
Definition relative_pose (anchor cam : blender_obj) (frame : Z) : camera_pose :=
  {| cp_name := ob_name cam;
     cp_matrix := correct_transform (ob_matrix_world cam frame) (ob_matrix_world anchor frame)
                    (ob_centroid_shift anchor frame) |}.

Definition correction_result (sc : scene) (frame : Z) : result (camera_pose * option vec3) :=
  match anchor_of sc with
  | None => Raise KeyError
  | Some anchor =>
      match sc_selected_camera sc with
      | None => Raise AttributeError
      | Some cam => Ok (relative_pose anchor cam frame, ob_centroid_shift anchor frame)
      end
  end.

Lemma shift_selected_eq w :
  shift_selected_camera_relative_to_anchor w =
  Out (correction_result (w_scene w) (w_frame w)) w [ECorrect (w_frame w)].
Proof.
  unfold shift_selected_camera_relative_to_anchor, correction_result, anchor_of,
    get_selected_camera, bind, get, emit, ret, raise; cbn.
  destruct (find_object _ _); [destruct (sc_selected_camera (w_scene w))|]; reflexivity.
Qed.

Lemma get_selected_camera_eq w :
  get_selected_camera w = Out (Ok (sc_selected_camera (w_scene w))) w [].
Proof. reflexivity. Qed.

Lemma write_eq p cams s w :
  write_instant_ngp_file p cams s w =
  Out (Ok tt) (set_fs w (put_data p (FRequest cams s) (w_fs w))) [EWriteRequest p cams s].
Proof. reflexivity. Qed.

Definition engine_outputs (w : world) (command : list string) : list (string * file) :=
  fold_left (fun fs pa => put_data (fst pa) (FArray (snd pa)) fs) (w_engine w command) (w_fs w).

Lemma popen_eq command w :
  popen_communicate command w =
  match w_exit w command with
  | None => Out (Raise FileNotFoundError) w []
  | Some _ => Out (Ok tt) (set_fs w (engine_outputs w command)) [ESpawn command; EWait]
  end.
Proof. unfold popen_communicate; cbn; destruct (w_exit w command); reflexivity. Qed.

Definition show_result (fs : list (string * file)) (p : string) (camera_obj : option blender_obj)
    : result unit * list event :=
  match fs_lookup p fs with
  | None => (Raise FileNotFoundError, [EReadResponse p None])
  | Some f =>
      match f_data f with
      | FArray a =>
          match camera_obj with
          | None => (Raise AttributeError, [EReadResponse p (Some a)])
          | Some cam =>
              (Ok tt, [EReadResponse p (Some a);
                       EDisplay (nd_w a) (nd_h a) (ravel (flipud a)) (ob_name cam)])
          end
      | _ => (Raise ValueError, [EReadResponse p None])
      end
  end.

Lemma show_image_eq ta camera_obj w :
  show_image_in_blender ta camera_obj w =
  Out (fst (show_result (w_fs w) (tf_name ta) camera_obj)) w
      (snd (show_result (w_fs w) (tf_name ta) camera_obj)).
Proof.
  unfold show_image_in_blender, show_result, read_np_array_from_file, bind; cbn.
  destruct (fs_lookup (tf_name ta) (w_fs w)) as [f|]; [|reflexivity].
  destruct (f_data f); try reflexivity.
  destruct camera_obj; reflexivity.
Qed.

Definition win32_cleanup (tj ta : temp_file) : M unit :=
  close tj ;; close ta ;; unlink (tf_name tj) ;; unlink (tf_name ta).

Lemma cleanup_eq tj ta w :
  cleanup_tmp_files tj ta w =
  match w_platform w with
  | Win32 => let o := win32_cleanup tj ta w in Out (res o) (wld o) (ECleanup :: trace o)
  | _ => Out (Ok tt) w [ECleanup]
  end.
Proof.
  unfold cleanup_tmp_files, win32_cleanup; cbn.
  destruct (w_platform w); try reflexivity.
  destruct (bind _ _ w); reflexivity.
Qed.

Lemma keeps_win32_cleanup fr tj ta : Keeps fr (win32_cleanup tj ta).
Proof. unfold win32_cleanup; monad_decompose @keeps_bind. Qed.

Lemma traceonly_win32_cleanup P tj ta : TraceOnly P (win32_cleanup tj ta).
Proof.
  unfold win32_cleanup; monad_decompose @traceonly_bind;
    intros w; unfold unlink; destruct (isfile _ _); reflexivity.
Qed.

(** The events of the capture loop: a seek, then a correction, per index. *)
Definition seek_correct (idxs : list Z) : list event :=
  flat_map (fun i => [ESeek i; ECorrect i]) idxs.

Arguments seek_correct : simpl never.

Definition is_seek_or_correct (e : event) : bool :=
  match e with ESeek _ | ECorrect _ => true | _ => false end.

Lemma seek_correct_only idxs : forallb is_seek_or_correct (seek_correct idxs) = true.
Proof.
  unfold seek_correct; induction idxs as [|i idxs IH]; [reflexivity|].
  cbn [flat_map]; cbn; exact IH.
Qed.

Lemma set_frame_twice w i j : set_frame (set_frame w i) j = set_frame w j.
Proof. reflexivity. Qed.

Lemma capture_cameras_eq idxs cams cs w :
  capture_cameras idxs cams cs w =
  match idxs with
  | [] => Out (Ok (cams, cs)) w []
  | i :: _ =>
      match anchor_of (w_scene w), sc_selected_camera (w_scene w) with
      | Some anchor, Some cam =>
          Out (Ok ((cams ++ map (relative_pose anchor cam) idxs)%list,
                   Some (ob_centroid_shift anchor (last idxs 0%Z))))
              (set_frame w (last idxs 0%Z)) (seek_correct idxs)
      | None, _ => Out (Raise KeyError) (set_frame w i) [ESeek i; ECorrect i]
      | Some _, None => Out (Raise AttributeError) (set_frame w i) [ESeek i; ECorrect i]
      end
  end.
Proof.
  revert cams cs w; induction idxs as [|i rest IH]; intros cams cs w; [reflexivity|].
  cbn [capture_cameras]; unfold frame_set; rewrite !bind_out; cbn.
  rewrite bind_out, shift_selected_eq; cbn.
  unfold correction_result.
  destruct (anchor_of (w_scene w)) as [anchor|] eqn:Ea; [|reflexivity].
  destruct (sc_selected_camera (w_scene w)) as [cam|] eqn:Ec; [|reflexivity].
  cbn; rewrite IH; cbn; rewrite Ea, Ec.
  destruct rest as [|j rest']; cbn.
  - reflexivity.
  - rewrite <- app_assoc; reflexivity.
Qed.

Lemma win32_cleanup_trace tj ta w : trace (win32_cleanup tj ta w) = [].
Proof.
  pose proof (traceonly_win32_cleanup (fun _ => false) tj ta w) as H.
  destruct (trace (win32_cleanup tj ta w)); [reflexivity | discriminate].
Qed.

Lemma forallb_weaken (P Q : event -> bool) t :
  (forall e, P e = true -> Q e = true) -> forallb P t = true -> forallb Q t = true.
Proof.
  intros H; induction t as [|e t IH]; cbn; auto.
  intros Ht; apply andb_prop in Ht as [H1 H2]; rewrite (H e H1), IH; auto.
Qed.

Lemma followed_by_skip p q t r :
  forallb (fun e => negb (p e)) t = true -> followed_by p q (t ++ r) = followed_by p q r.
Proof.
  induction t as [|e t IH]; cbn; auto.
  intros Ht; apply andb_prop in Ht as [H1 H2]; rewrite H1, IH; auto.
Qed.

Lemma preceded_skip p q s t r :
  forallb (fun e => negb (p e) && negb (q e)) t = true ->
  preceded p q s (t ++ r) = preceded p q s r.
Proof.
  revert s; induction t as [|e t IH]; intros s; cbn; auto.
  intros Ht; apply andb_prop in Ht as [H1 H2]; apply andb_prop in H1 as [Hp Hq].
  apply negb_true_iff in Hp, Hq; rewrite Hp, Hq, orb_false_r, IH; auto.
Qed.

(** Setup events are neither writes, launches, waits, reads, displays,
    cleanups nor corrections. *)
Lemma setup_not (t : list event) (P : event -> bool) :
  (forall e, is_setup e = true -> P e = true) ->
  forallb is_setup t = true -> forallb P t = true.
Proof. intros H; apply forallb_weaken; exact H. Qed.

Ltac setup_skip :=
  match goal with
  | S : forallb is_setup ?t = true |- context [followed_by ?p ?q (?t ++ ?r)] =>
      rewrite (followed_by_skip p q t r)
        by (apply (setup_not t); [intros [] ?; cbn in *; congruence | exact S])
  | S : forallb is_setup ?t = true |- context [preceded ?p ?q ?s (?t ++ ?r)] =>
      rewrite (preceded_skip p q s t r)
        by (apply (setup_not t); [intros [] ?; cbn in *; congruence | exact S])
  | |- context [followed_by ?p ?q (seek_correct ?i ++ ?r)] =>
      rewrite (followed_by_skip p q (seek_correct i) r)
        by (apply (forallb_weaken is_seek_or_correct);
            [intros [] ?; cbn in *; congruence | apply seek_correct_only])
  | |- context [preceded ?p ?q ?s (seek_correct ?i ++ ?r)] =>
      rewrite (preceded_skip p q s (seek_correct i) r)
        by (apply (forallb_weaken is_seek_or_correct);
            [intros [] ?; cbn in *; congruence | apply seek_correct_only])
  | S : forallb is_setup ?t = true |- context [followed_by ?p ?q ?t] =>
      rewrite <- (app_nil_r t)
  | S : forallb is_setup ?t = true |- context [preceded ?p ?q ?s ?t] =>
      rewrite <- (app_nil_r t)
  end.

(** Symbolic evaluation of an orchestrator, one bind or match at a time. *)
Ltac eval_step :=
  first
  [ rewrite bind_out
  | rewrite shift_selected_eq | rewrite get_selected_camera_eq | rewrite write_eq
  | rewrite popen_eq | rewrite show_image_eq | rewrite cleanup_eq
  | rewrite win32_cleanup_trace | rewrite capture_cameras_eq
  | progress (unfold emit, ret, raise, get, modify, show_result, fst, snd,
                get_scene_animation_indices; cbv beta iota zeta)
  | match goal with
    | |- context [match create_instant_ngp_cmd ?dp ?w with _ => _ end] =>
        let S := fresh "S" in let K := fresh "K" in let E := fresh "E" in
        pose proof (create_instant_ngp_cmd_setup dp w) as S;
        pose proof (create_instant_ngp_cmd_keeps dp w) as K;
        destruct (create_instant_ngp_cmd dp w) as [[[[? ?] ?]|?] ? ?] eqn:E;
        cbn in S, K
    | |- context [match ?x with _ => _ end] =>
        lazymatch type of x with
        | out _ => fail
        | _ =>
            lazymatch x with
            | context [match _ with _ => _ end] => fail
            | _ => destruct x eqn:?
            end
        end
    end ].

(** Every display hands over the array returned by the read just before it,
    flipped top-to-bottom and flattened, with width [shape[1]] and height
    [shape[0]]; there is no other display. *)
Fixpoint display_after_read (t : list event) : Prop :=
  match t with
  | [] => True
  | EReadResponse _ (Some a) :: EDisplay width height pixels _ :: rest =>
      width = nd_w a /\ height = nd_h a /\ pixels = ravel (flipud a) /\ display_after_read rest
  | e :: rest => is_display e = false /\ display_after_read rest
  end.

Lemma display_after_read_skip (P : event -> bool) t r :
  (forall e, P e = true -> is_display e = false /\ is_read e = false) ->
  forallb P t = true -> display_after_read (t ++ r) <-> display_after_read r.
Proof.
  intros HP; induction t as [|e t IH]; cbn; [tauto|].
  intros Ht; apply andb_prop in Ht as [He Ht]; destruct (HP e He) as [Hd Hr].
  destruct e; cbn in Hd, Hr |- *; try discriminate; rewrite IH by exact Ht; tauto.
Qed.

Lemma no_display_skip (P : event -> bool) t r :
  (forall e, P e = true -> is_display e = false) ->
  forallb P t = true ->
  forallb (fun e => negb (is_display e)) (t ++ r) = forallb (fun e => negb (is_display e)) r.
Proof.
  intros HP Ht; rewrite forallb_app.
  rewrite (forallb_weaken P (fun e => negb (is_display e)) t); [reflexivity| |exact Ht].
  intros e He; rewrite (HP e He); reflexivity.
Qed.

Ltac display_skip :=
  match goal with
  | S : forallb is_setup ?t = true |- context [display_after_read (?t ++ ?r)] =>
      rewrite (display_after_read_skip is_setup t r)
        by (first [exact S | intros [] ?; cbn in *; split; congruence])
  | S : forallb is_setup ?t = true |- context [forallb ?f (?t ++ ?r)] =>
      rewrite (no_display_skip is_setup t r)
        by (first [exact S | intros [] ?; cbn in *; congruence])
  | |- context [forallb ?f (seek_correct ?i ++ ?r)] =>
      rewrite (no_display_skip is_seek_or_correct (seek_correct i) r)
        by (first [apply seek_correct_only | intros [] ?; cbn in *; congruence])
  | S : forallb is_setup ?t = true |- context [display_after_read ?t] =>
      rewrite <- (app_nil_r t)
  | S : forallb is_setup ?t = true |- context [forallb ?f ?t] =>
      lazymatch f with is_setup => fail | _ => rewrite <- (app_nil_r t) end
  end.

(** ** Example invocations *)

Definition example_settings : settings :=
  {| execution_environment := "DEFAULT PYTHON"; conda_exe_fp := ""; conda_env_name := "";
     python_exe_fp := "py"; view_synthesis_executable_fp := "run.py";
     view_synthesis_snapshot_fp := "s.msgpack"; additional_system_dps := "";
     samples_per_pixel := 4%Z; rotation_anchor_obj_name := "anchor" |}.

Definition example_anchor : blender_obj :=
  {| ob_name := "anchor"; ob_matrix_world := fun _ => translation 1 2 3;
     ob_centroid_shift := fun _ => Some (1#2, 0, 0) |}.

Definition example_camera : blender_obj :=
  {| ob_name := "Camera"; ob_matrix_world := fun _ => identity4;
     ob_centroid_shift := fun _ => None |}.

Definition example_response : ndarray :=
  {| nd_h := 2; nd_w := 1; nd_c := 1; nd_rows := [[1]; [2]] |}.

(** A scene with a selected camera and an anchor, the script on disk, the
    temp files [/tmp/a] and [/tmp/b] to be created, an external process
    exiting with [code] (and writing its response only on success), and
    the frame indices [idxs]. *)
Definition example_world (p : platform) (code : Z) (idxs : list Z) : world :=
  {| w_platform := p;
     w_scene := {| view_synthesis_panel_settings := example_settings;
                   sc_objects := [example_camera; example_anchor];
                   sc_selected_camera := Some example_camera |};
     w_frame := 0%Z;
     w_fs := [("run.py", {| f_open := false; f_delete := false; f_data := FEmpty |})];
     w_fresh := ["/tmp/a"; "/tmp/b"];
     w_exit := fun _ => Some code;
     w_engine := fun _ => if Z.eqb code 0 then [("/tmp/b", example_response)] else [];
     w_anim_indices := idxs |}.

(** The temp files of [example_world] as win32 creates them. *)
Definition example_tmp_a : temp_file := {| tf_name := "/tmp/a"; tf_delete := false |}.
Definition example_tmp_b : temp_file := {| tf_name := "/tmp/b"; tf_delete := false |}.




(** A path that is absent, or names a file that is not deleted on close. *)
Definition nodelete (q : string) (fs : list (string * file)) : Prop :=
  forall g, fs_lookup q fs = Some g -> f_delete g = false.



Lemma create_temp_files_keeps : Keeps true create_temp_files.
Proof. unfold create_temp_files; monad_decompose @keeps_bind. Qed.



(** ** Claims *)




(** C6: in both variants the request is written before the external
    process is launched, and the response is read only after the process
    has terminated. *)
Theorem C6_request_before_launch_response_after_exit :
  (forall save_to_dp w,
     preceded is_write is_spawn false (trace (run_view_synth save_to_dp w)) = true /\
     preceded is_wait is_read false (trace (run_view_synth save_to_dp w)) = true) /\
  (forall filepath w,
     preceded is_write is_spawn false (trace (export_anim_execute filepath w)) = true /\
     preceded is_wait is_read false (trace (export_anim_execute filepath w)) = true).
Proof.
  split; intros dp w.
  - unfold run_view_synth; repeat eval_step; cbn; repeat setup_skip; split; reflexivity.
  - unfold export_anim_execute; repeat eval_step; cbn; repeat setup_skip; split; reflexivity.
Qed.

(** C9: on a platform other than linux and win32, both orchestrators stop
    with an AssertionError while creating the temp files: nothing but the
    opening log line is reported, no settings are read, no command is built,
    no process is launched and the state is untouched. *)
Theorem C9_unsupported_platform_asserts (w : world) (name : string) (save_to_dp : option string)
    (filepath : string) :
  w_platform w = OtherPlatform name ->
  create_instant_ngp_cmd save_to_dp w = Out (Raise AssertionError) w [] /\
  run_view_synth save_to_dp w =
    Out (Raise AssertionError) w [ELog "Compute view synthesis for current camera: ..."] /\
  export_anim_execute filepath w =
    Out (Raise AssertionError) w [ELog "Export view synthesis for current camera with animation: ..."].
Proof.
  intros Hp.
  assert (Hc : forall dp, create_instant_ngp_cmd dp w = Out (Raise AssertionError) w []).
  { intros dp; unfold create_instant_ngp_cmd, create_temp_files; rewrite !bind_out; cbn.
    rewrite Hp; reflexivity. }
  split; [apply Hc|split].
  - unfold run_view_synth; rewrite bind_out; cbn; rewrite bind_out, Hc; reflexivity.
  - unfold export_anim_execute; rewrite bind_out; cbn; rewrite bind_out, Hc; reflexivity.
Qed.

(** C10: each of the three operators is available exactly when a camera is
    selected. *)
Theorem C10_poll_iff_camera_selected (op : operator) (w : world) :
  poll op w = true <-> res (get_selected_camera w) <> Ok None.
Proof.
  unfold poll, selected_camera_is_not_none; rewrite get_selected_camera_eq; cbn.
  destruct op; destruct (sc_selected_camera (w_scene w)); split; intros H; try congruence;
    try discriminate; exfalso; apply H; reflexivity.
Qed.

(** C7: in the single-shot variant the array read back from the response
    file is handed to the display flipped along its first axis, with width
    [shape[1]] and height [shape[0]]; the animation-sequence variant never
    displays anything. *)
Theorem C7_single_shot_displays_flipped_response :
  (forall save_to_dp w, display_after_read (trace (run_view_synth save_to_dp w))) /\
  (forall filepath w,
     forallb (fun e => negb (is_display e)) (trace (export_anim_execute filepath w)) = true).
Proof.
  split; intros dp w.
  - unfold run_view_synth; repeat eval_step; cbn; repeat display_skip; cbn; tauto.
  - unfold export_anim_execute; repeat eval_step; cbn; repeat display_skip; reflexivity.
Qed.

Ltac in_trace_cases :=
  repeat match goal with
  | H : In _ (_ ++ _) |- _ => apply in_app_or in H; destruct H as [H|H]
  | H : In _ (_ :: _) |- _ => destruct H as [H|H]
  | H : _ \/ _ |- _ => destruct H as [H|H]
  | H : In _ [] |- _ => destruct H
  | H : False |- _ => destruct H
  | H : In ?e ?t, S : forallb is_setup ?t = true |- _ =>
      pose proof (proj1 (forallb_forall _ _) S _ H); clear H; discriminate
  | H : In ?e (seek_correct ?i) |- _ =>
      pose proof (proj1 (forallb_forall _ _) (seek_correct_only i) _ H); clear H; discriminate
  | H : ?a = ?b |- _ => discriminate H
  end.

(** C8: the animation-sequence variant writes, as the centroid shift of its
    single request, the shift the anchor has at the last frame index of the
    list. *)
Theorem C8_last_shift_wins (filepath : string) (w : world) (path : string)
    (cams : list camera_pose) (shift : option vec3) :
  In (EWriteRequest path cams shift) (trace (export_anim_execute filepath w)) ->
  exists pre last_idx anchor,
    w_anim_indices w = (pre ++ [last_idx])%list /\
    anchor_of (w_scene w) = Some anchor /\
    shift = ob_centroid_shift anchor last_idx.
Proof.
  unfold export_anim_execute; repeat eval_step; cbn; intros H; in_trace_cases.
  all: injection H as <- <- <-;
    destruct K as [[_ [Hsc [_ [_ Hidx]]]] _];
    match goal with
    | E1 : w_anim_indices _ = ?i :: ?l, E2 : anchor_of _ = Some ?a |- _ =>
        exists (removelast (i :: l)), (last (i :: l) 0%Z), a; split; [|split];
        [ rewrite <- Hidx, E1; apply app_removelast_last; discriminate
        | rewrite <- Hsc; exact E2
        | reflexivity ]
    end.
Qed.

Lemma fs_lookup_remove_same p fs : fs_lookup p (fs_remove p fs) = None.
Proof.
  induction fs as [|[q f] fs IH]; [reflexivity|]; cbn.
  destruct (String.eqb q p) eqn:E; cbn; [exact IH|rewrite E; exact IH].
Qed.

Lemma fs_lookup_remove_none p q fs : fs_lookup q fs = None -> fs_lookup q (fs_remove p fs) = None.
Proof.
  induction fs as [|[r f] fs IH]; [reflexivity|]; cbn.
  destruct (String.eqb r q) eqn:E; [discriminate|]; intros H.
  destruct (String.eqb r p); cbn; [auto|rewrite E; auto].
Qed.

Lemma unlink_eq p w :
  unlink p w =
  if isfile p (w_fs w) then Out (Ok tt) (set_fs w (fs_remove p (w_fs w))) []
  else Out (Raise FileNotFoundError) w [].
Proof. reflexivity. Qed.


Lemma close_ok tf w : res (close tf w) = Ok tt.
Proof.
  unfold close; destruct (fs_lookup (tf_name tf) (w_fs w)) as [f|];
    [destruct (f_open f), (f_delete f)|]; reflexivity.
Qed.

Lemma win32_cleanup_ok tj ta w :
  res (win32_cleanup tj ta w) = Ok tt ->
  fs_lookup (tf_name tj) (w_fs (wld (win32_cleanup tj ta w))) = None /\
  fs_lookup (tf_name ta) (w_fs (wld (win32_cleanup tj ta w))) = None.
Proof.
  unfold win32_cleanup; rewrite bind_out.
  pose proof (close_ok tj w) as C1; destruct (close tj w) as [r1 w1 t1]; cbn in C1; subst r1.
  rewrite bind_out.
  pose proof (close_ok ta w1) as C2; destruct (close ta w1) as [r2 w2 t2]; cbn in C2; subst r2.
  rewrite bind_out, unlink_eq; destruct (isfile (tf_name tj) (w_fs w2)); cbn; [|discriminate].
  rewrite unlink_eq; destruct (isfile (tf_name ta) _); cbn; [|discriminate].
  intros _; split.
  - apply fs_lookup_remove_none, fs_lookup_remove_same.
  - apply fs_lookup_remove_same.
Qed.









(** C5: with an empty list of frame indices the animation-sequence variant
    never assigns [centroid_shift]: it stops with an UnboundLocalError
    before any request file is written or any process is launched. *)
Lemma C5_empty_index_list_unbound_shift :
  let o := export_anim_execute "out" (example_world Linux 0 []) in
  res o = Raise UnboundLocalError /\
  existsb is_write (trace o) = false /\
  existsb is_spawn (trace o) = false.
Proof. vm_compute; repeat split; reflexivity. Qed.




Lemma C8_last_shift_wins_witness :
  In (EWriteRequest "/tmp/a"
        (map (relative_pose example_anchor example_camera) [0%Z; 5%Z; 10%Z])
        (Some (1#2, 0, 0)))
     (trace (export_anim_execute "out" (example_world Linux 0 [0%Z; 5%Z; 10%Z]))) /\
  exists pre last_idx anchor,
    w_anim_indices (example_world Linux 0 [0%Z; 5%Z; 10%Z]) = (pre ++ [last_idx])%list /\
    anchor_of (w_scene (example_world Linux 0 [0%Z; 5%Z; 10%Z])) = Some anchor /\
    Some (1#2, 0, 0) = ob_centroid_shift anchor last_idx.
Proof.
  assert (Hin : In (EWriteRequest "/tmp/a"
        (map (relative_pose example_anchor example_camera) [0%Z; 5%Z; 10%Z])
        (Some (1#2, 0, 0)))
     (trace (export_anim_execute "out" (example_world Linux 0 [0%Z; 5%Z; 10%Z])))).
  { apply nth_error_In with (n := 11%nat); reflexivity. }
  split; [exact Hin|].
  exact (C8_last_shift_wins _ _ _ _ _ Hin).
Defined.

Lemma C9_unsupported_platform_asserts_witness :
  w_platform (example_world (OtherPlatform "darwin") 0 [0%Z]) = OtherPlatform "darwin" /\
  create_instant_ngp_cmd None (example_world (OtherPlatform "darwin") 0 [0%Z]) =
    Out (Raise AssertionError) (example_world (OtherPlatform "darwin") 0 [0%Z]) [].
Proof.
  assert (Hp : w_platform (example_world (OtherPlatform "darwin") 0 [0%Z]) = OtherPlatform "darwin")
    by reflexivity.
  split; [exact Hp|].
  exact (proj1 (C9_unsupported_platform_asserts _ _ None "out" Hp)).
Defined.


Lemma fs_lookup_remove p q fs :
  fs_lookup q (fs_remove p fs) = if String.eqb p q then None else fs_lookup q fs.
Proof.
  unfold fs_remove; induction fs as [|[r f] fs IH]; cbn [filter fs_lookup fst].
  - destruct (String.eqb p q); reflexivity.
  - destruct (String.eqb r p) eqn:Erp; cbn [negb filter fs_lookup].
    + apply String.eqb_eq in Erp; subst r. rewrite IH.
      destruct (String.eqb p q); reflexivity.
    + destruct (String.eqb r q) eqn:Erq.
      * apply String.eqb_eq in Erq; subst r. rewrite String.eqb_sym, Erp. reflexivity.
      * exact IH.
Qed.

Lemma fs_lookup_put p f q fs :
  fs_lookup q (fs_put p f fs) = if String.eqb p q then Some f else fs_lookup q fs.
Proof.
  unfold fs_put; cbn [fs_lookup]; rewrite fs_lookup_remove.
  destruct (String.eqb p q); reflexivity.
Qed.

Lemma isfile_put p f q fs : isfile q (fs_put p f fs) = String.eqb p q || isfile q fs.
Proof. unfold isfile; rewrite fs_lookup_put; destruct (String.eqb p q); reflexivity. Qed.

Lemma isfile_remove p q fs : isfile q (fs_remove p fs) = negb (String.eqb p q) && isfile q fs.
Proof. unfold isfile; rewrite fs_lookup_remove; destruct (String.eqb p q); reflexivity. Qed.

Lemma named_temporary_file_eq d w :
  named_temporary_file d w =
  Out (Ok {| tf_name := hd "/tmp/tmp" (w_fresh w); tf_delete := d |})
      (set_fs (set_fresh w (tl (w_fresh w)))
              (fs_put (hd "/tmp/tmp" (w_fresh w))
                      {| f_open := true; f_delete := d; f_data := FEmpty |} (w_fs w)))
      [ETempFile (hd "/tmp/tmp" (w_fresh w))].
Proof. unfold named_temporary_file; destruct (w_fresh w); reflexivity. Qed.

Lemma close_nodelete tf w :
  nodelete (tf_name tf) (w_fs w) ->
  forall q, isfile q (w_fs (wld (close tf w))) = isfile q (w_fs w) /\
            (nodelete q (w_fs w) -> nodelete q (w_fs (wld (close tf w)))).
Proof.
  intros Hn q; unfold close.
  destruct (fs_lookup (tf_name tf) (w_fs w)) as [f|] eqn:Ef; [|cbn; tauto].
  rewrite (Hn f Ef).
  destruct (f_open f); cbn; [|tauto].
  unfold isfile, nodelete; rewrite fs_lookup_put.
  destruct (String.eqb (tf_name tf) q) eqn:Eq; [|tauto].
  apply String.eqb_eq in Eq; subst q; rewrite Ef; split; [reflexivity|].
  intros _ g Hg; injection Hg as <-; reflexivity.
Qed.

Lemma nodelete_put p f q fs :
  f_delete f = false -> nodelete q fs -> nodelete q (fs_put p f fs).
Proof.
  unfold nodelete; intros Hf Hq g; rewrite fs_lookup_put.
  destruct (String.eqb p q); [intros H; injection H as <-; exact Hf | apply Hq].
Qed.

Lemma nodelete_put_same p f fs : f_delete f = false -> nodelete p (fs_put p f fs).
Proof.
  unfold nodelete; intros Hf g; rewrite fs_lookup_put, String.eqb_refl.
  intros H; injection H as <-; exact Hf.
Qed.

Lemma create_temp_files_ok w :
  w_platform w = Linux \/ w_platform w = Win32 ->
  exists tj ta, res (create_temp_files w) = Ok (tj, ta) /\
  forall p, isfile p (w_fs (wld (create_temp_files w))) =
            String.eqb (tf_name tj) p || String.eqb (tf_name ta) p || isfile p (w_fs w).
Proof.
  intros Hp; unfold create_temp_files; rewrite bind_out; cbn.
  destruct Hp as [Hp|Hp]; rewrite Hp.
  - rewrite bind_out, named_temporary_file_eq; cbn.
    rewrite bind_out, named_temporary_file_eq; cbn.
    eexists _, _; split; [reflexivity|]; intros p.
    rewrite !isfile_put; cbn; destruct (String.eqb _ p), (String.eqb _ p); reflexivity.
  - rewrite bind_out, named_temporary_file_eq; cbn [res wld trace].
    rewrite bind_out, named_temporary_file_eq;
      cbn [res wld trace w_fresh w_fs set_fs set_fresh].
    set (a := hd "/tmp/tmp" (w_fresh w)); set (b := hd "/tmp/tmp" (tl (w_fresh w))).
    match goal with |- context [bind (close _) _ ?x] => set (w2 := x) end.
    assert (Na : nodelete a (w_fs w2))
      by (apply nodelete_put; [reflexivity | apply nodelete_put_same; reflexivity]).
    assert (Nb : nodelete b (w_fs w2)) by (apply nodelete_put_same; reflexivity).
    rewrite bind_out.
    pose proof (close_ok {| tf_name := a; tf_delete := false |} w2) as O3.
    pose proof (close_nodelete {| tf_name := a; tf_delete := false |} w2 Na) as C3.
    destruct (close _ w2) as [r3 w3 t3]; cbn in O3, C3 |- *; subst r3.
    rewrite bind_out.
    pose proof (close_ok {| tf_name := b; tf_delete := false |} w3) as O4.
    assert (Nb3 : nodelete b (w_fs w3)) by (apply (proj2 (C3 b)), Nb).
    pose proof (close_nodelete {| tf_name := b; tf_delete := false |} w3 Nb3) as C4.
    destruct (close _ w3) as [r4 w4 t4]; cbn in O4, C4 |- *; subst r4.
    eexists _, _; split; [reflexivity|]; intros p; cbn.
    rewrite (proj1 (C4 p)), (proj1 (C3 p)); unfold w2; cbn [w_fs set_fs].
    rewrite !isfile_put; destruct (String.eqb a p), (String.eqb b p); reflexivity.
Qed.



(** A successful run of the animation-sequence variant needs a nonempty list
    of frame indices and leaves the timeline at the last index of the list:
    the capture loop's seeks are never undone. *)
Theorem export_anim_leaves_last_frame fp w r :
  res (export_anim_execute fp w) = Ok r ->
  w_anim_indices w <> [] /\
  w_frame (wld (export_anim_execute fp w)) = last (w_anim_indices w) 0%Z.
Proof.
  unfold export_anim_execute; repeat eval_step; cbn; intros H; try discriminate.
  all: destruct K as [[_ [_ [_ [_ Hidx]]]] _];
    match goal with E1 : w_anim_indices _ = ?i :: ?l |- _ => rewrite <- Hidx, E1 end;
    split; [discriminate|];
    try rewrite (proj2 (keeps_win32_cleanup true _ _ _) eq_refl); reflexivity.
Qed.

Lemma create_instant_ngp_cmd_ok_inv dp w cmd tj ta :
  res (create_instant_ngp_cmd dp w) = Ok (cmd, tj, ta) ->
  let st := view_synthesis_panel_settings (w_scene w) in
  exists py conda env,
    res (create_temp_files w) = Ok (tj, ta) /\
    select_environment st = Some (py, conda, env) /\
    cmd = create_subprocess_command (view_synthesis_executable_fp st)
            (instant_ngp_parameter_list (view_synthesis_snapshot_fp st) (tf_name tj) (tf_name ta)
               (samples_per_pixel st) (additional_system_dps st) dp) py conda env.
Proof.
  intros Hres st.
  unfold create_instant_ngp_cmd in Hres; rewrite bind_out in Hres.
  pose proof (proj1 (create_temp_files_keeps w)) as [_ [Hsc _]].
  destruct (create_temp_files w) as [[[tj' ta']|e] w1 t1]; cbn in Hsc, Hres |- *; [|discriminate].
  unfold emit, get, assert, ret, raise in Hres; rewrite !bind_out in Hres; cbn in Hres.
  rewrite Hsc in Hres; fold st in Hres.
  destruct (isfile (view_synthesis_executable_fp st) _); cbn in Hres; [|discriminate].
  destruct (isfile (tf_name tj') _); cbn in Hres; [|discriminate].
  destruct (isfile (tf_name ta') _); cbn in Hres; [|discriminate].
  destruct (select_environment st) as [[[py conda] env]|]; cbn in Hres; [|discriminate].
  injection Hres as <- <- <-.
  exists py, conda, env; auto.
Qed.

Lemma command_exchange_args dp w cmd tj ta :
  res (create_instant_ngp_cmd dp w) = Ok (cmd, tj, ta) ->
  exists pre post,
    cmd = (pre ++ ["--temp_json_ifp"; tf_name tj; "--temp_array_ofp"; tf_name ta] ++ post)%list.
Proof.
  intros H; destruct (create_instant_ngp_cmd_ok_inv dp w cmd tj ta H) as (py & conda & env & _ & _ & ->).
  unfold create_subprocess_command, instant_ngp_parameter_list.
  set (post := (["--samples_per_pixel"; _] ++ _)%list).
  destruct py as [py|]; [|destruct conda as [conda|]; [destruct env as [env|]|]].
  - eexists (_ :: _ :: _ :: _ :: []), post; reflexivity.
  - eexists (_ :: _ :: _ :: _ :: _ :: _ :: _ :: _ :: []), post; reflexivity.
  - eexists (_ :: _ :: _ :: []), post; reflexivity.
  - eexists (_ :: _ :: _ :: []), post; reflexivity.
Qed.

(** In a single-shot run the launched command carries
    [--temp_json_ifp <json> --temp_array_ofp <array>] as consecutive
    arguments, the request is only ever written to [<json>] and the
    response only ever read from [<array>]. *)
Theorem command_names_exchange_files dp w cmd :
  let tr := trace (run_view_synth dp w) in
  In (ESpawn cmd) tr ->
  exists pre post json_fp array_fp,
    cmd = (pre ++ ["--temp_json_ifp"; json_fp; "--temp_array_ofp"; array_fp] ++ post)%list /\
    (forall p cams s, In (EWriteRequest p cams s) tr -> p = json_fp) /\
    (forall q v, In (EReadResponse q v) tr -> q = array_fp).
Proof.
  unfold run_view_synth; repeat eval_step; cbn; intros H; in_trace_cases.
  all: injection H as <-;
    match goal with
    | E : create_instant_ngp_cmd ?d ?w0 = Out (Ok (?c, ?j, ?a)) _ _ |- _ =>
        assert (R : res (create_instant_ngp_cmd d w0) = Ok (c, j, a)) by (rewrite E; reflexivity);
        destruct (command_exchange_args _ _ _ _ _ R) as (pre & post & Hc);
        exists pre, post, (tf_name j), (tf_name a); split; [exact Hc|]
    end;
    split; intros * H'; in_trace_cases; injection H' as <-; reflexivity.
Qed.

(** In the animation-sequence variant the launched command carries
    [--temp_json_ifp <json> --temp_array_ofp <array>] as consecutive
    arguments and the request is only ever written to [<json>]. *)
Theorem command_names_exchange_files_anim fp w cmd :
  let tr := trace (export_anim_execute fp w) in
  In (ESpawn cmd) tr ->
  exists pre post json_fp array_fp,
    cmd = (pre ++ ["--temp_json_ifp"; json_fp; "--temp_array_ofp"; array_fp] ++ post)%list /\
    (forall p cams s, In (EWriteRequest p cams s) tr -> p = json_fp).
Proof.
  unfold export_anim_execute; repeat eval_step; cbn; intros H; in_trace_cases.
  all: injection H as <-;
    match goal with
    | E : create_instant_ngp_cmd ?d ?w0 = Out (Ok (?c, ?j, ?a)) _ _ |- _ =>
        assert (R : res (create_instant_ngp_cmd d w0) = Ok (c, j, a)) by (rewrite E; reflexivity);
        destruct (command_exchange_args _ _ _ _ _ R) as (pre & post & Hc);
        exists pre, post, (tf_name j), (tf_name a); split; [exact Hc|]
    end;
    intros * H'; in_trace_cases; injection H' as <-; reflexivity.
Qed.


(** On linux or win32, with a known execution environment and the script on
    disk, building the command succeeds and both temp files exist
    afterwards. *)
Theorem create_instant_ngp_cmd_succeeds dp w :
  let st := view_synthesis_panel_settings (w_scene w) in
  w_platform w = Linux \/ w_platform w = Win32 ->
  select_environment st <> None ->
  isfile (view_synthesis_executable_fp st) (w_fs w) = true ->
  exists cmd tj ta,
    res (create_instant_ngp_cmd dp w) = Ok (cmd, tj, ta) /\
    isfile (tf_name tj) (w_fs (wld (create_instant_ngp_cmd dp w))) = true /\
    isfile (tf_name ta) (w_fs (wld (create_instant_ngp_cmd dp w))) = true.
Proof.
  intros st Hp Henv Hscript.
  destruct (create_temp_files_ok w Hp) as (tj & ta & Hr & Hf).
  pose proof (proj1 (create_temp_files_keeps w)) as [_ [Hsc _]].
  unfold create_instant_ngp_cmd; rewrite bind_out.
  destruct (create_temp_files w) as [r1 w1 t1]; cbn [res wld] in Hr, Hf, Hsc; subst r1.
  cbv beta iota.
  unfold emit, get, assert, ret, raise; rewrite !bind_out; cbv beta iota.
  rewrite Hsc; fold st.
  rewrite !Hf, Hscript, !String.eqb_refl, !orb_true_r; cbn [orb].
  rewrite !bind_out; cbv beta iota.
  destruct (select_environment st) as [[[py conda] env]|]; [|congruence].
  rewrite !bind_out; cbv beta iota; cbn [res wld].
  eexists _, tj, ta; split; [reflexivity|].
  rewrite !Hf, !String.eqb_refl, !orb_true_r; split; reflexivity.
Qed.


Lemma create_temp_files_setup : TraceOnly is_setup create_temp_files.
Proof. unfold create_temp_files; monad_decompose @traceonly_bind. Qed.

(** On win32, when the script file is missing (and is not one of the temp
    paths), the single-shot run fails on the script assertion, performs no
    cleanup, and leaves both temp files on disk. *)
Theorem missing_script_leaves_win32_temp_files dp w tj ta :
  let script := view_synthesis_executable_fp (view_synthesis_panel_settings (w_scene w)) in
  w_platform w = Win32 ->
  res (create_temp_files w) = Ok (tj, ta) ->
  tf_name tj <> script -> tf_name ta <> script ->
  isfile script (w_fs w) = false ->
  let o := run_view_synth dp w in
  res o = Raise AssertionError /\
  existsb is_cleanup (trace o) = false /\
  isfile (tf_name tj) (w_fs (wld o)) = true /\
  isfile (tf_name ta) (w_fs (wld o)) = true.
Proof.
  intros script Hp Hr Nj Na Hscript o.
  destruct (create_temp_files_ok w (or_intror Hp)) as (tj' & ta' & Hr' & Hf).
  rewrite Hr in Hr'; injection Hr' as <- <-.
  pose proof (proj1 (create_temp_files_keeps w)) as [_ [Hsc _]].
  pose proof (create_temp_files_setup w) as Ts.
  unfold o, run_view_synth, emit; rewrite bind_out; cbv beta iota.
  rewrite bind_out; unfold create_instant_ngp_cmd; rewrite bind_out.
  destruct (create_temp_files w) as [r1 w1 t1]; cbn [res wld trace] in Hr, Hf, Hsc, Ts; subst r1.
  cbv beta iota.
  unfold emit, get, assert, ret, raise; rewrite !bind_out; cbv beta iota.
  rewrite Hsc; fold script.
  assert (Hs1 : isfile script (w_fs w1) = false).
  { rewrite Hf, Hscript; apply String.eqb_neq in Nj, Na; rewrite Nj, Na; reflexivity. }
  rewrite Hs1; cbn [res wld trace].
  rewrite !Hf, !String.eqb_refl, !orb_true_r.
  split; [reflexivity | split; [|split; reflexivity]].
  rewrite !existsb_app; cbn [existsb is_cleanup orb].
  destruct (existsb is_cleanup t1) eqn:X; [|reflexivity].
  apply existsb_exists in X as (e & Hin & He).
  pose proof (proj1 (forallb_forall _ _) Ts e Hin); destruct e; discriminate.
Qed.




Lemma w_engine_set_fs w fs : w_engine (set_fs w fs) = w_engine w.
Proof. reflexivity. Qed.

Lemma w_fs_set_fs w fs : w_fs (set_fs w fs) = fs.
Proof. reflexivity. Qed.

Ltac win32_end_state :=
  match goal with
  | E : create_instant_ngp_cmd ?d ?w0 = Out (Ok (?c, ?j, ?a)) _ _,
    Ht : res (create_temp_files ?w0) = Ok _ |- _ =>
      let R := fresh "R" in let Ht' := fresh "Ht" in
      assert (R : res (create_instant_ngp_cmd d w0) = Ok (c, j, a)) by (rewrite E; reflexivity);
      destruct (create_instant_ngp_cmd_ok_inv _ _ _ _ _ R) as (_ & _ & _ & Ht' & _);
      rewrite Ht in Ht'; injection Ht' as <- <-
  end;
  let Hpl := fresh "Hpl" in
  match goal with K : host_kept _ _ /\ _ |- _ => destruct K as [[Hpl _] _] end;
  first
    [ match goal with
      | Hp : w_platform _ = Win32, Hx : w_platform _ = _ |- _ =>
          cbn in Hx; rewrite Hpl, Hp in Hx; discriminate Hx
      end
    | match goal with
      | Hx : res (win32_cleanup _ _ _) = Ok ?u
        |- isfile _ (w_fs (wld (win32_cleanup ?a ?b ?W))) = false /\ _ =>
          let N1 := fresh "N" in let N2 := fresh "N" in let Hx' := fresh "Hx" in
          destruct u;
          assert (Hx' : res (win32_cleanup a b W) = Ok tt) by exact Hx;
          destruct (win32_cleanup_ok _ _ _ Hx') as [N1 N2];
          unfold isfile; rewrite N1, N2; split; reflexivity
      end ].

(** On win32, a run of either the single-shot or the animation-sequence
    variant that finishes removes both temp files from disk. *)
Theorem successful_win32_runs_remove_temp_files :
  (forall dp w tj ta r,
     w_platform w = Win32 -> res (create_temp_files w) = Ok (tj, ta) ->
     res (run_view_synth dp w) = Ok r ->
     isfile (tf_name tj) (w_fs (wld (run_view_synth dp w))) = false /\
     isfile (tf_name ta) (w_fs (wld (run_view_synth dp w))) = false) /\
  (forall fp w tj ta r,
     w_platform w = Win32 -> res (create_temp_files w) = Ok (tj, ta) ->
     res (export_anim_execute fp w) = Ok r ->
     isfile (tf_name tj) (w_fs (wld (export_anim_execute fp w))) = false /\
     isfile (tf_name ta) (w_fs (wld (export_anim_execute fp w))) = false).
Proof.
  split.
  - intros dp w tj ta r Hp Ht; unfold run_view_synth; repeat eval_step; cbn; intros Hr; try discriminate.
    all: win32_end_state.
  - intros fp w tj ta r Hp Ht; unfold export_anim_execute; repeat eval_step; cbn; intros Hr; try discriminate.
    all: win32_end_state.
Qed.


Lemma export_anim_leaves_last_frame_witness :
  res (export_anim_execute "out" (example_world Linux 0 [0%Z; 5%Z; 10%Z])) = Ok "FINISHED" /\
  w_frame (wld (export_anim_execute "out" (example_world Linux 0 [0%Z; 5%Z; 10%Z]))) = 10%Z.
Proof.
  assert (H : res (export_anim_execute "out" (example_world Linux 0 [0%Z; 5%Z; 10%Z])) =
                Ok "FINISHED") by (vm_compute; reflexivity).
  split; [exact H | exact (proj2 (export_anim_leaves_last_frame _ _ _ H))].
Defined.

Lemma command_names_exchange_files_witness :
  let tr := trace (run_view_synth None (example_world Linux 0 [0%Z])) in
  let cmd := ["py"; "run.py"; "--load_snapshot"; "s.msgpack"; "--temp_json_ifp";
              "/tmp/a"; "--temp_array_ofp"; "/tmp/b"; "--samples_per_pixel"; "4"] in
  In (ESpawn cmd) tr /\
  exists pre post json_fp array_fp,
    cmd = (pre ++ ["--temp_json_ifp"; json_fp; "--temp_array_ofp"; array_fp] ++ post)%list /\
    (forall p cams s, In (EWriteRequest p cams s) tr -> p = json_fp) /\
    (forall q v, In (EReadResponse q v) tr -> q = array_fp).
Proof.
  intros tr cmd.
  assert (H : In (ESpawn cmd) tr) by (apply nth_error_In with (n := 7%nat); vm_compute; reflexivity).
  split; [exact H | exact (command_names_exchange_files _ _ _ H)].
Defined.

Lemma command_names_exchange_files_anim_witness :
  let tr := trace (export_anim_execute "out" (example_world Linux 0 [0%Z])) in
  let cmd := ["py"; "run.py"; "--load_snapshot"; "s.msgpack"; "--temp_json_ifp";
              "/tmp/a"; "--temp_array_ofp"; "/tmp/b"; "--samples_per_pixel"; "4";
              "--additional_output_dp"; "out"] in
  In (ESpawn cmd) tr /\
  exists pre post json_fp array_fp,
    cmd = (pre ++ ["--temp_json_ifp"; json_fp; "--temp_array_ofp"; array_fp] ++ post)%list /\
    (forall p cams s, In (EWriteRequest p cams s) tr -> p = json_fp).
Proof.
  intros tr cmd.
  assert (H : In (ESpawn cmd) tr) by (apply nth_error_In with (n := 8%nat); vm_compute; reflexivity).
  split; [exact H | exact (command_names_exchange_files_anim _ _ _ H)].
Defined.


Lemma create_instant_ngp_cmd_succeeds_witness :
  select_environment example_settings <> None /\
  exists cmd tj ta,
    res (create_instant_ngp_cmd None (example_world Win32 0 [0%Z])) = Ok (cmd, tj, ta) /\
    isfile (tf_name tj) (w_fs (wld (create_instant_ngp_cmd None (example_world Win32 0 [0%Z])))) = true /\
    isfile (tf_name ta) (w_fs (wld (create_instant_ngp_cmd None (example_world Win32 0 [0%Z])))) = true.
Proof.
  assert (He : select_environment example_settings <> None) by (vm_compute; discriminate).
  split; [exact He|].
  exact (create_instant_ngp_cmd_succeeds None (example_world Win32 0 [0%Z])
           (or_intror eq_refl) He eq_refl).
Defined.

Lemma missing_script_leaves_win32_temp_files_witness :
  res (create_temp_files (set_fs (example_world Win32 0 [0%Z]) [])) = Ok (example_tmp_a, example_tmp_b) /\
  let o := run_view_synth None (set_fs (example_world Win32 0 [0%Z]) []) in
  res o = Raise AssertionError /\
  existsb is_cleanup (trace o) = false /\
  isfile "/tmp/a" (w_fs (wld o)) = true /\
  isfile "/tmp/b" (w_fs (wld o)) = true.
Proof.
  assert (Ht : res (create_temp_files (set_fs (example_world Win32 0 [0%Z]) [])) =
                 Ok (example_tmp_a, example_tmp_b)) by (vm_compute; reflexivity).
  split; [exact Ht|].
  exact (missing_script_leaves_win32_temp_files None (set_fs (example_world Win32 0 [0%Z]) [])
           example_tmp_a example_tmp_b eq_refl Ht
           ltac:(discriminate) ltac:(discriminate) eq_refl).
Defined.


Lemma successful_win32_runs_remove_temp_files_witness :
  res (run_view_synth None (example_world Win32 0 [0%Z])) = Ok "FINISHED" /\
  isfile "/tmp/a" (w_fs (wld (run_view_synth None (example_world Win32 0 [0%Z])))) = false /\
  isfile "/tmp/b" (w_fs (wld (run_view_synth None (example_world Win32 0 [0%Z])))) = false /\
  res (export_anim_execute "out" (example_world Win32 0 [0%Z])) = Ok "FINISHED" /\
  isfile "/tmp/a" (w_fs (wld (export_anim_execute "out" (example_world Win32 0 [0%Z])))) = false /\
  isfile "/tmp/b" (w_fs (wld (export_anim_execute "out" (example_world Win32 0 [0%Z])))) = false.
Proof.
  assert (Ht : res (create_temp_files (example_world Win32 0 [0%Z])) =
                 Ok (example_tmp_a, example_tmp_b)) by (vm_compute; reflexivity).
  assert (H1 : res (run_view_synth None (example_world Win32 0 [0%Z])) = Ok "FINISHED")
    by (vm_compute; reflexivity).
  assert (H2 : res (export_anim_execute "out" (example_world Win32 0 [0%Z])) = Ok "FINISHED")
    by (vm_compute; reflexivity).
  destruct (proj1 successful_win32_runs_remove_temp_files None (example_world Win32 0 [0%Z]) _ _ _ eq_refl Ht H1) as [A1 B1].
  destruct (proj2 successful_win32_runs_remove_temp_files "out" (example_world Win32 0 [0%Z]) _ _ _ eq_refl Ht H2) as [A2 B2].
  repeat split; assumption.
Defined.
